(** * dmarcator: the per-transaction header evaluation of [main.go]

    A shallow embedding of the milter session of dmarcator
    ([Session.MailFrom], [Session.Header], [Session.Headers]) together with
    the decision helpers [shouldRejectDMARCRes] and [newRejectResponse] and
    the construction of the [rejectDomains] table in [main].

    Go strings are byte strings; they are modelled as [string] (a list of
    [ascii] bytes).  The libraries the code calls are modelled as follows:
    - [strings.ToLower] and [strings.EqualFold] on their ASCII behaviour
      (header names and domain names are ASCII);
    - [authres.Parse] (go-msgauth) is a parameter of the development: every
      theorem holds for any parser;
    - [fmt.Sprintf] for a format with one string argument, on the verbs
      without flags, width or precision;
    - [%q] ([strconv.Quote]) byte by byte: ASCII as Go escapes it, bytes
      above 0x7f copied (what Go does for valid printable UTF-8);
    - the logger [l] as the list of lines an operation prints. *)

From Stdlib Require Import String Ascii List Bool NArith.
From stdpp Require Import base gmap strings list.

Open Scope string_scope.
Open Scope N_scope.

(** ** Go library helpers *)

Module gostrings.

(** [unicode.ToLower] on an ASCII byte. *)
Definition lowerByte (c : ascii) : ascii :=
  let n := nat_of_ascii c in
  if (Nat.leb 65 n && Nat.leb n 90)%bool then ascii_of_nat (n + 32) else c.

Fixpoint ToLower (s : string) : string :=
  match s with
  | EmptyString => EmptyString
  | String c rest => String (lowerByte c) (ToLower rest)
  end.

(** [strings.EqualFold]: equality under simple case folding. *)
Definition EqualFold (s t : string) : bool := String.eqb (ToLower s) (ToLower t).

Definition dq : ascii := "034".
Definition bs : ascii := "092".

Definition hexDigit (n : nat) : ascii :=
  if Nat.ltb n 10 then ascii_of_nat (48 + n) else ascii_of_nat (87 + n).

(** One byte as [strconv.Quote] writes it. *)
Definition quoteByte (c : ascii) : string :=
  let n := nat_of_ascii c in
  if Ascii.eqb c dq then String bs (String dq EmptyString)
  else if Ascii.eqb c bs then String bs (String bs EmptyString)
  else if (Nat.leb 32 n && Nat.leb n 126)%bool then String c EmptyString
  else if Nat.eqb n 7 then String bs "a"
  else if Nat.eqb n 8 then String bs "b"
  else if Nat.eqb n 12 then String bs "f"
  else if Nat.eqb n 10 then String bs "n"
  else if Nat.eqb n 13 then String bs "r"
  else if Nat.eqb n 9 then String bs "t"
  else if Nat.eqb n 11 then String bs "v"
  else if Nat.ltb n 128 then
    String bs (String "x" (String (hexDigit (Nat.div n 16))
                             (String (hexDigit (Nat.modulo n 16)) EmptyString)))
  else String c EmptyString.

Fixpoint quoteBody (s : string) : string :=
  match s with
  | EmptyString => EmptyString
  | String c rest => quoteByte c ++ quoteBody rest
  end.

(** The [%q] verb on a string: [strconv.Quote]. *)
Definition Quote (s : string) : string := String dq (quoteBody s ++ String dq EmptyString).

(** [fmt.Sprintf(format, arg)] with one string argument ([arg] is [None]
    once it has been consumed). *)
Definition extraArg (arg : option string) : string :=
  match arg with
  | Some a => "%!(EXTRA string=" ++ a ++ ")"
  | None => EmptyString
  end.

Fixpoint sprintf (format : string) (arg : option string) : string :=
  match format with
  | EmptyString => extraArg arg
  | String "%" EmptyString => "%!(NOVERB)" ++ extraArg arg
  | String "%" (String "%" rest) => "%" ++ sprintf rest arg
  | String "%" (String "s" rest) =>
      match arg with
      | Some a => a ++ sprintf rest None
      | None => "%!s(MISSING)" ++ sprintf rest None
      end
  | String "%" (String v rest) =>
      match arg with
      | Some a => "%!" ++ String v ("(string=" ++ a ++ ")") ++ sprintf rest None
      | None => "%!" ++ String v "(MISSING)" ++ sprintf rest None
      end
  | String c rest => String c (sprintf rest arg)
  end.

Definition Sprintf (format arg : string) : string := sprintf format (Some arg).

End gostrings.
Import gostrings.

(** ** go-msgauth's [authres] *)

Module authres.

Definition ResultValue := string.
Definition ResultPass : ResultValue := "pass".

Record DMARCResult := mkDMARCResult {
  Value : ResultValue;
  Reason : string;
  From : string
}.

(** The [Result] interface: the DMARC case and the other result kinds
    (auth, spf, dkim, iprev, ...), named by their method. *)
Inductive Result :=
  | DMARC (r : DMARCResult)
  | Other (method : string).

(** [error] values are represented by their message. *)
Definition error := string.

(** The type of [authres.Parse]: the authserv-id and the results, or an error. *)
Definition ParseFn := string -> (string * list Result) + error.

End authres.
Import authres.

(** ** go-milter *)

Module milter.

Inductive Response :=
  | RespContinue
  | RespAccept
  | ReplyCode (text : string).  (* NewResponseStr(byte(ActReplyCode), text) *)

Record Modifier := mkModifier { Macros : gmap string string }.

(** [m.Macros[k]]: a missing key reads as [""]. *)
Definition macro (m : Modifier) (k : string) : string := default "" (Macros m !! k).

End milter.
Import milter.

(** ** main.go *)

Record Conf := mkConf {
  AuthservID : string;
  ListenURI : string;
  RejectDomains : list string;
  RejectFmt : string;
  UMask : Z
}.

(** [main]: [for _, domain := range conf.RejectDomains { rejectDomains[strings.ToLower(domain)] = true }]
    on the map created empty by [make(map[string]bool)]. *)
Definition buildRejectDomains (domains : list string) : gmap string bool :=
  fold_left (fun m domain => <[ToLower domain := true]> m) domains ∅.

Definition fieldAuthres : N := N.shiftl 1 0.
Definition fieldFrom : N := N.shiftl 1 1.
Definition fieldLast : N := N.shiftl 1 2.
Definition fieldAll : N := fieldLast - 1.

Record Session := mkSession {
  fieldsFound : N;
  dmarcResult : option DMARCResult;
  shouldReject : bool;
  headerFrom : string
}.

(** [&Session{}]: the zero value. *)
Definition newSession : Session := mkSession 0 None false "".

(** What a method returns: the milter response, the Go [error], the session
    after the call (methods have pointer receivers) and the lines logged. *)
Record Ret := mkRet {
  ret_resp : Response;
  ret_err : option error;
  ret_sess : Session;
  ret_log : list string
}.

Section Dmarcator.

Variable conf : Conf.
Variable rejectDomains : gmap string bool.
Variable Parse : ParseFn.

Definition shouldRejectDMARCRes (result : DMARCResult) : bool :=
  negb (String.eqb (Value result) ResultPass) &&
  default false (rejectDomains !! ToLower (From result)).

Definition newRejectResponse (domain : string) : Response :=
  ReplyCode ("550 5.7.1 " ++ Sprintf (RejectFmt conf) domain).

Definition MailFrom (s : Session) (from : string) (m : Modifier) : Ret :=
  if negb (String.eqb (macro m "{auth_authen}") "") then mkRet RespAccept None s []
  else mkRet RespContinue None s [].

(** One iteration of [for _, result := range results] in [Header]. *)
Definition recordResult (s : Session) (result : Result) : Session :=
  match result with
  | DMARC r =>
      mkSession (N.lor (fieldsFound s) fieldAuthres) (Some r)
                (shouldRejectDMARCRes r) (headerFrom s)
  | Other _ => s
  end.

Definition Header (s : Session) (name value : string) (m : Modifier) : Ret :=
  if N.eqb (fieldsFound s) fieldAll then mkRet RespContinue None s []
  else if (N.eqb (N.land (fieldsFound s) fieldFrom) 0 && EqualFold name "From")%bool then
    mkRet RespContinue None
          (mkSession (N.lor (fieldsFound s) fieldFrom) (dmarcResult s)
                     (shouldReject s) value) []
  else if (N.eqb (N.land (fieldsFound s) fieldAuthres) 0
           && EqualFold name "Authentication-Results")%bool then
    let queueID := macro m "i" in
    match Parse value with
    | inr err =>
        mkRet RespContinue None s
              [queueID ++ ": failed to parse header: " ++ err ++ ": "
                       ++ Quote (name ++ ": " ++ value)]
    | inl (id, results) =>
        if negb (EqualFold id (AuthservID conf)) then mkRet RespContinue None s []
        else mkRet RespContinue None (fold_left recordResult results s) []
    end
  else mkRet RespContinue None s [].

Definition Headers (s : Session) (m : Modifier) : Ret :=
  let queueID := macro m "i" in
  match dmarcResult s with
  | None =>
      mkRet RespAccept None s
            [queueID ++ ": accept dmarc=unknown from=unknown addr=" ++ Quote (headerFrom s)]
  | Some r =>
      if shouldReject s then
        mkRet (newRejectResponse (From r)) None s
              [queueID ++ ": reject dmarc=" ++ Value r ++ " from=" ++ From r
                       ++ " addr=" ++ Quote (headerFrom s)]
      else
        mkRet RespAccept None s
              [queueID ++ ": accept dmarc=" ++ Value r ++ " from=" ++ From r
                       ++ " addr=" ++ Quote (headerFrom s)]
  end.

(** The header fields of one transaction, in arrival order, each with the
    modifier of its callback. *)
Fixpoint runHeaders (s : Session) (hs : list (string * string * Modifier)) : Session :=
  match hs with
  | [] => s
  | (name, value, m) :: rest => runHeaders (ret_sess (Header s name value m)) rest
  end.

End Dmarcator.

(** ** Start-up in [main] *)

(** [s[n:]] for [n] at most [len(s)]. *)
Fixpoint skip (n : nat) (s : string) : string :=
  match n, s with
  | O, _ => s
  | S n', String _ rest => skip n' rest
  | S _, EmptyString => EmptyString
  end.

(** [strings.HasPrefix] *)
Fixpoint hasPrefix (s prefix : string) {struct prefix} : bool :=
  match prefix, s with
  | EmptyString, _ => true
  | String c p', String d s' => Ascii.eqb c d && hasPrefix s' p'
  | String _ _, EmptyString => false
  end.

(** [strings.Cut(s, sep)]: with [i := strings.Index(s, sep)], the pair
    [s[:i], s[i+len(sep):]] and [true] when [i >= 0], else [s, ""] and
    [false].  The first occurrence of [sep] is found by trying each
    position in turn. *)
Fixpoint cut (s sep : string) : string * string * bool :=
  if hasPrefix s sep then (EmptyString, skip (String.length sep) s, true)
  else match s with
       | EmptyString => (EmptyString, EmptyString, false)
       | String c rest =>
           let '(before, after, found) := cut rest sep in
           if found then (String c before, after, true) else (s, EmptyString, false)
       end.

(** The values of [var conf] before the configuration file is decoded. *)
Definition defaultConf : Conf :=
  mkConf "" "unix:///run/dmarcator/dmarcator.sock" []
         "rejected because of DMARC failure for %s overriding policy" 2%Z.

(** The configuration file as [os.Open] and [toml.NewDecoder(..).Decode(&conf)]
    leave it: an open error, a decode error, or [conf] after decoding (the
    keys of the file written over [defaultConf]). *)
Inductive LoadResult :=
  | OpenErr (err : error)
  | DecodeErr (err : error)
  | Decoded (c : Conf).

(** How [main] ends its start-up: [l.Fatal] with its line, or serving with
    the final [conf], the [rejectDomains] table, the [network] and
    [address] cut from [ListenURI], and the lines logged. *)
Inductive MainOutcome :=
  | Fatal (line : string)
  | Serving (c : Conf) (rejectDomains : gmap string bool) (network address : string)
            (log : list string).

(** The loop of [main] over [conf.RejectDomains], on the global
    [rejectDomains] as it is when [main] runs. *)
Definition addRejectDomains (rejectDomains : gmap string bool) (domains : list string)
    : gmap string bool :=
  fold_left (fun m domain => <[ToLower domain := true]> m) domains rejectDomains.

(** [main] after the command line: [flagConf] is the [-c] path, [hostname]
    what [os.Hostname] returns, [listen] what [net.Listen] returns (the
    network and address of [ln.Addr()], or an error), [rejectDomains] the
    global table before the loop.  [syscall.Umask] and the signal handler
    have no effect on the values modelled here. *)
Definition mainSetup (flagConf : string) (load : LoadResult) (hostname : string + error)
    (listen : string -> string -> (string * string) + error)
    (rejectDomains : gmap string bool) : MainOutcome :=
  match load with
  | OpenErr err => Fatal ("Failed to open conf file: " ++ err)
  | DecodeErr err => Fatal ("Failed to parse conf file " ++ flagConf ++ ": " ++ err)
  | Decoded c =>
      match (if String.eqb (AuthservID c) "" then hostname else inl (AuthservID c)) with
      | inr err => Fatal ("Failed to read hostname: " ++ err)
      | inl id =>
          let c' := mkConf id (ListenURI c) (RejectDomains c) (RejectFmt c) (UMask c) in
          let '(network, address, found) := cut (ListenURI c') "://" in
          if negb found then Fatal "Invalid listen URI"
          else
            let rd := addRejectDomains rejectDomains (RejectDomains c') in
            match listen network address with
            | inr err => Fatal ("Failed to setup listener: " ++ err)
            | inl (lnNetwork, lnAddr) =>
                Serving c' rd network address
                        ["Milter listening at " ++ lnNetwork ++ "://" ++ lnAddr]
            end
      end
  end.

(** [readListener] of [main_test.go] on the lines of the log: the rest of the
    first line starting with [Milter listening] from byte 20 on ([line[20:]]
    panics on a shorter line), or [t.Fatalf] when there is none. *)
Inductive ListenerRead :=
  | ListenerAddr (addr : string)
  | ListenerPanic
  | ListenerNotFound.

Fixpoint readListener (lines : list string) : ListenerRead :=
  match lines with
  | [] => ListenerNotFound
  | line :: rest =>
      if hasPrefix line "Milter listening" then
        if Nat.leb 20 (String.length line) then ListenerAddr (skip 20 line) else ListenerPanic
      else readListener rest
  end.

(** ** Notions used in the statements *)

(** A format string without any [%]: no verb, no escape. *)
Fixpoint noPercent (s : string) : bool :=
  match s with
  | EmptyString => true
  | String c rest => negb (Ascii.eqb c "%") && noPercent rest
  end.

(** The DMARC entries of a header occurrence, in order. *)
Fixpoint dmarcEntries (results : list Result) : list DMARCResult :=
  match results with
  | [] => []
  | DMARC r :: rest => r :: dmarcEntries rest
  | Other _ :: rest => dmarcEntries rest
  end.

Definition lastDMARC (results : list Result) : option DMARCResult :=
  last (dmarcEntries results).

(** The value of the first [From] field of a sequence of header events,
    [""] when there is none. *)
Fixpoint firstFrom (hs : list (string * string * Modifier)) : string :=
  match hs with
  | [] => ""
  | (name, value, _) :: rest => if EqualFold name "From" then value else firstFrom rest
  end.

Fixpoint isPrefix (p s : string) : bool :=
  match p, s with
  | EmptyString, _ => true
  | String c p', String d s' => Ascii.eqb c d && isPrefix p' s'
  | String _ _, EmptyString => false
  end.

Fixpoint contains (p s : string) : bool :=
  match s with
  | EmptyString => isPrefix p s
  | String _ s' => isPrefix p s || contains p s'
  end.

(** The audit line reports the outcome as this word. *)
Definition outcomeWord (resp : Response) : string :=
  match resp with
  | RespAccept => "accept"
  | _ => "reject"
  end.


(** The [Authentication-Results] events of a sequence of header events. *)
Definition authresEvents (hs : list (string * string * Modifier)) : list (string * string * Modifier) :=
  List.filter (fun '(name, _, _) => EqualFold name "Authentication-Results") hs.

(** What the header events keep true of a session: no bit outside
    [fieldAll], the [Authentication-Results] bit set exactly when a verdict is
    held, no cached reject without a verdict, no [From] value without the
    [From] bit. *)
Definition sessionInv (s : Session) : Prop :=
  N.land (fieldsFound s) fieldAll = fieldsFound s /\
  (N.land (fieldsFound s) fieldAuthres = 0 <-> dmarcResult s = None) /\
  (dmarcResult s = None -> shouldReject s = false) /\
  (N.land (fieldsFound s) fieldFrom = 0 -> headerFrom s = "").

(** Two sessions hold the same verdict and decision and agree on the
    [Authentication-Results] bit; the second has no [From] bit. *)
Definition sameVerdict (s1 s2 : Session) : Prop :=
  dmarcResult s1 = dmarcResult s2 /\ shouldReject s1 = shouldReject s2 /\
  N.land (fieldsFound s1) fieldAuthres = N.land (fieldsFound s2) fieldAuthres /\
  N.land (fieldsFound s2) fieldFrom = 0.

(** ** Fixtures of [main_test.go] *)

Definition testConf : Conf :=
  mkConf "mail.club1.fr" "tcp://127.0.0.1:" ["gmail.com"]
         "rejected because of DMARC failure for %s overriding policy" 2%Z.

Definition testRejectDomains : gmap string bool := buildRejectDomains (RejectDomains testConf).

(** A stand-in for [authres.Parse] on the header values of the tests. *)
Definition testParse : ParseFn := fun v =>
  if String.eqb v "mail.club1.fr; dmarc=pass header.from=gmail.com" then
    inl ("mail.club1.fr", [DMARC (mkDMARCResult "pass" "" "gmail.com")])
  else if String.eqb v "mail.club1.fr; dmarc=fail header.from=gmail.com" then
    inl ("mail.club1.fr", [DMARC (mkDMARCResult "fail" "" "gmail.com")])
  else if String.eqb v "mail.club1.fr; dmarc=none header.from=gmail.com" then
    inl ("mail.club1.fr", [DMARC (mkDMARCResult "none" "" "gmail.com")])
  else if String.eqb v "mail.club1.fr; dmarc=fail header.from=GMAIL.com" then
    inl ("mail.club1.fr", [DMARC (mkDMARCResult "fail" "" "GMAIL.com")])
  else if String.eqb v "mail.club1.fr; dmarc=fail header.from=example.com" then
    inl ("mail.club1.fr", [DMARC (mkDMARCResult "fail" "" "example.com")])
  else if String.eqb v "example.com; dmarc=fail header.from=gmail.com" then
    inl ("example.com", [DMARC (mkDMARCResult "fail" "" "gmail.com")])
  else if String.eqb v "mail.club1.fr; auth=none header.from=example.com" then
    inl ("mail.club1.fr", [Other "auth"])
  else if String.eqb v "mail.club1.fr; dmarc=fail header.from=gmail.com; dmarc=pass header.from=gmail.com" then
    inl ("mail.club1.fr", [DMARC (mkDMARCResult "fail" "" "gmail.com");
                           DMARC (mkDMARCResult "pass" "" "gmail.com")])
  else inr "msgauth: malformed authentication method and value".

Definition testModifier : Modifier := mkModifier {[ "i" := "67A7541757" ]}.

Definition authModifier : Modifier :=
  mkModifier {[ "{auth_authen}" := "alice" ]}.

(** A transaction: its header fields, then the end of headers. *)
Definition testTransaction (hs : list (string * string)) : Ret :=
  Headers testConf
          (runHeaders testConf testRejectDomains testParse newSession
                      (map (fun '(n, v) => (n, v, testModifier)) hs))
          testModifier.

(** Sessions and header events used by the witnesses. *)

Definition gmailFail : string := "mail.club1.fr; dmarc=fail header.from=GMAIL.com".

Definition gmailFailSession : Session :=
  runHeaders testConf (buildRejectDomains (RejectDomains testConf)) testParse newSession
             [("Authentication-Results", gmailFail, testModifier)].

Definition malformed : string := "mail.club1.fr; dmarc header.from=gmail.com".

Definition malformedSession : Session :=
  runHeaders testConf testRejectDomains testParse newSession
             [("From", "hello@example.com", testModifier);
              ("Authentication-Results", malformed, testModifier);
              ("Authentication-Results", "example.com; dmarc=fail header.from=gmail.com", testModifier);
              ("Authentication-Results", "mail.club1.fr; auth=none header.from=example.com", testModifier)].

Definition bothSession : Session :=
  runHeaders testConf testRejectDomains testParse newSession
             [("Authentication-Results", "mail.club1.fr; dmarc=fail header.from=gmail.com", testModifier);
              ("From", "coucou@gmail.com", testModifier)].

Definition laterHeaders : list (string * string * Modifier) :=
  [("Authentication-Results", "mail.club1.fr; dmarc=pass header.from=gmail.com", testModifier);
   ("From", "other@example.org", testModifier)].

Definition twoDmarc : string :=
  "mail.club1.fr; dmarc=fail header.from=gmail.com; dmarc=pass header.from=gmail.com".

(** The [from mime encoded address] case of [TestMultipleFields]: an RFC 2047
    encoded [From] value, and a parser that also reads its
    [Authentication-Results] value. *)
Definition mimeFrom : string := "=?ISO-8859-1?Q?Aur=E9lien_COUDERC?= <libre@coucou.fr>".

Definition mimeParse : ParseFn := fun v =>
  if String.eqb v "mail.club1.fr; dmarc=pass header.from=coucou.fr" then
    inl ("mail.club1.fr", [DMARC (mkDMARCResult "pass" "" "coucou.fr")])
  else testParse v.

(** A configuration file as decoded, without [AuthservID], and a [net.Listen]
    that binds the address asked for. *)
Definition fileConf : Conf :=
  mkConf "" "tcp://127.0.0.1:8890" ["Gmail.com"; "example.org"]
         "rejected because of DMARC failure for %s overriding policy" 18%Z.

Definition echoListen (network address : string) : (string * string) + error :=
  inl (network, address).

(** What [main] serves with after reading [fileConf] on host [mail.club1.fr]. *)
Definition servedConf : Conf :=
  mkConf "mail.club1.fr" "tcp://127.0.0.1:8890" ["Gmail.com"; "example.org"]
         "rejected because of DMARC failure for %s overriding policy" 18%Z.

Definition servedTable : gmap string bool :=
  <[ "example.org" := true ]> (<[ "gmail.com" := true ]> ∅).

Definition confPath : string := "/etc/dmarcator/dmarcator.toml".

(** A listen URI without a scheme, and a template without a verb. *)
Definition badUriConf : Conf :=
  mkConf "" "127.0.0.1:8890" [] "rejected because of DMARC failure for %s overriding policy" 18%Z.

Definition plainFmtConf : Conf :=
  mkConf "mail.club1.fr" "tcp://127.0.0.1:" ["gmail.com"] "rejected by local policy" 2%Z.

(** * Theorems *)

(** ** The cases of [TestHauthRes] and [TestMultipleFields] *)

Definition rejectGmail : Response :=
  ReplyCode "550 5.7.1 rejected because of DMARC failure for gmail.com overriding policy".

Example test_pass_rejected_domain :
  ret_resp (testTransaction [("Authentication-Results", "mail.club1.fr; dmarc=pass header.from=gmail.com")])
  = RespAccept.
Proof. vm_compute. reflexivity. Qed.

Example test_none_rejected_domain :
  ret_resp (testTransaction [("Authentication-Results", "mail.club1.fr; dmarc=none header.from=gmail.com")])
  = rejectGmail.
Proof. vm_compute. reflexivity. Qed.

Example test_fail_uppercase :
  testTransaction [("Authentication-Results", "mail.club1.fr; dmarc=fail header.from=GMAIL.com")]
  = mkRet (ReplyCode "550 5.7.1 rejected because of DMARC failure for GMAIL.com overriding policy")
          None
          (mkSession 1 (Some (mkDMARCResult "fail" "" "GMAIL.com")) true "")
          ["67A7541757: reject dmarc=fail from=GMAIL.com addr=" ++ String dq (String dq EmptyString)].
Proof. vm_compute. reflexivity. Qed.

Example test_other_authserv :
  ret_resp (testTransaction [("Authentication-Results", "example.com; dmarc=fail header.from=gmail.com")])
  = RespAccept.
Proof. vm_compute. reflexivity. Qed.

Example test_invalid_header :
  ret_resp (testTransaction [("Authentication-Results", "mail.club1.fr; dmarc header.from=gmail.com")])
  = RespAccept.
Proof. vm_compute. reflexivity. Qed.

Example test_multiple_dmarc :
  ret_resp (testTransaction
              [("Authentication-Results", "mail.club1.fr; dmarc=fail header.from=gmail.com");
               ("Authentication-Results", "mail.club1.fr; dmarc=pass header.from=gmail.com")])
  = rejectGmail.
Proof. vm_compute. reflexivity. Qed.

Example test_from_bare_address :
  ret_log (testTransaction
             [("Authentication-Results", "mail.club1.fr; dmarc=pass header.from=gmail.com");
              ("From", "coucou@gmail.com")])
  = ["67A7541757: accept dmarc=pass from=gmail.com addr=" ++ Quote "coucou@gmail.com"].
Proof. vm_compute. reflexivity. Qed.

Example default_listen_uri :
  cut (ListenURI defaultConf) "://" = ("unix", "/run/dmarcator/dmarcator.sock", true).
Proof. vm_compute. reflexivity. Qed.

Example cut_not_found : cut "localhost:8891" "://" = ("localhost:8891", "", false).
Proof. vm_compute. reflexivity. Qed.

Example read_listener_line :
  readListener ["something else"; "Milter listening at tcp://127.0.0.1:40123"]
  = ListenerAddr "tcp://127.0.0.1:40123".
Proof. vm_compute. reflexivity. Qed.

Example read_listener_short_line : readListener ["Milter listening"] = ListenerPanic.
Proof. vm_compute. reflexivity. Qed.

(** ** The [fieldsFound] bitmask *)

Lemma land_lor_same (x b : N) : N.land (N.lor x b) b = b.
Proof.
  apply N.bits_inj; intro i.
  rewrite N.land_spec, N.lor_spec.
  destruct (N.testbit x i), (N.testbit b i); reflexivity.
Qed.

Lemma land_lor_authres_from (x : N) :
  N.land (N.lor x fieldAuthres) fieldFrom = N.land x fieldFrom.
Proof.
  rewrite N.land_lor_distr_l.
  replace (N.land fieldAuthres fieldFrom) with 0 by reflexivity.
  apply N.lor_0_r.
Qed.

Lemma land_lor_from_authres (x : N) :
  N.land (N.lor x fieldFrom) fieldAuthres = N.land x fieldAuthres.
Proof.
  rewrite N.land_lor_distr_l.
  replace (N.land fieldFrom fieldAuthres) with 0 by reflexivity.
  apply N.lor_0_r.
Qed.

Lemma land_lor_keep (x c b : N) :
  N.land x b <> 0 -> N.land (N.lor x c) b <> 0.
Proof.
  intros H E. apply H.
  rewrite N.land_lor_distr_l in E.
  exact (N.lor_eq_0_l _ _ E).
Qed.

Lemma authres_clear_not_all (x : N) :
  N.land x fieldAuthres = 0 -> N.eqb x fieldAll = false.
Proof.
  intros H. apply N.eqb_neq. intros ->. discriminate H.
Qed.

Lemma from_clear_not_all (x : N) :
  N.land x fieldFrom = 0 -> N.eqb x fieldAll = false.
Proof.
  intros H. apply N.eqb_neq. intros ->. discriminate H.
Qed.

Lemma all_has_authres : N.land fieldAll fieldAuthres <> 0.
Proof. discriminate. Qed.

Lemma all_has_from : N.land fieldAll fieldFrom <> 0.
Proof. discriminate. Qed.

(** ** Header names *)

Lemma authres_name_not_from (name : string) :
  EqualFold name "Authentication-Results" = true -> EqualFold name "From" = false.
Proof.
  unfold EqualFold. intros H.
  apply String.eqb_eq in H. rewrite H. reflexivity.
Qed.

(** ** [fmt.Sprintf] on a template with one [%s] *)

Lemma sprintf_cons_other (c : ascii) (rest : string) (arg : option string) :
  Ascii.eqb c "%" = false -> sprintf (String c rest) arg = String c (sprintf rest arg).
Proof.
  intros H.
  destruct c as [[] [] [] [] [] [] [] []]; try reflexivity; discriminate H.
Qed.

Lemma sprintf_app_noPercent (pre rest : string) (arg : option string) :
  noPercent pre = true -> sprintf (pre ++ rest) arg = pre ++ sprintf rest arg.
Proof.
  induction pre as [|c pre IH]; intros H; [reflexivity|].
  simpl in H. apply andb_prop in H as [Hc Hpre].
  apply negb_true_iff in Hc.
  change (sprintf (String c (pre ++ rest)) arg = String c (pre ++ sprintf rest arg)).
  rewrite sprintf_cons_other by exact Hc.
  rewrite IH by exact Hpre. reflexivity.
Qed.

Lemma sprintf_noPercent_consumed (s : string) :
  noPercent s = true -> sprintf s None = s.
Proof.
  induction s as [|c s IH]; intros H; [reflexivity|].
  simpl in H. apply andb_prop in H as [Hc Hs].
  apply negb_true_iff in Hc.
  rewrite sprintf_cons_other by exact Hc.
  rewrite IH by exact Hs. reflexivity.
Qed.

Lemma Sprintf_one_verb (pre post d : string) :
  noPercent pre = true -> noPercent post = true ->
  Sprintf (pre ++ "%s" ++ post) d = pre ++ d ++ post.
Proof.
  intros Hpre Hpost. unfold Sprintf.
  rewrite sprintf_app_noPercent by exact Hpre.
  change (pre ++ (d ++ sprintf post None) = pre ++ d ++ post).
  rewrite sprintf_noPercent_consumed by exact Hpost.
  reflexivity.
Qed.

(** ** Sessions *)

Section Props.

Variable conf : Conf.
Variable rejectDomains : gmap string bool.
Variable Parse : ParseFn.

(** Splits a goal on the branches of [Header]. *)
Ltac header_cases :=
  unfold Header;
  repeat match goal with
  | |- context [if ?b then _ else _] => destruct b eqn:?
  | |- context [match Parse ?v with _ => _ end] =>
      let E := fresh "Eparse" in destruct (Parse v) as [[? ?]|?] eqn:E
  end; simpl;
  repeat match goal with
  | H : (_ && _)%bool = true |- _ => apply andb_prop in H as [? ?]
  | H : N.eqb _ _ = true |- _ => apply N.eqb_eq in H
  end.

Lemma fold_no_dmarc (results : list Result) (s : Session) :
  dmarcEntries results = [] -> fold_left (recordResult rejectDomains) results s = s.
Proof.
  revert s; induction results as [|[r|method] results IH]; intros s H;
    [reflexivity| discriminate H |].
  apply IH. exact H.
Qed.

Lemma fold_headerFrom (results : list Result) (s : Session) :
  headerFrom (fold_left (recordResult rejectDomains) results s) = headerFrom s.
Proof.
  revert s; induction results as [|[r|method] results IH]; intros s; simpl;
    rewrite ?IH; reflexivity.
Qed.

Lemma fold_keeps_bit (results : list Result) (s : Session) (b : N) :
  N.land (fieldsFound s) b <> 0 ->
  N.land (fieldsFound (fold_left (recordResult rejectDomains) results s)) b <> 0.
Proof.
  revert s; induction results as [|[r|method] results IH]; intros s H; simpl;
    [exact H| |exact (IH s H)].
  apply IH. simpl. apply land_lor_keep. exact H.
Qed.

Lemma fold_last (results : list Result) (s : Session) (r : DMARCResult) :
  lastDMARC results = Some r ->
  let s' := fold_left (recordResult rejectDomains) results s in
  dmarcResult s' = Some r /\ shouldReject s' = shouldRejectDMARCRes rejectDomains r /\
  N.land (fieldsFound s') fieldAuthres <> 0.
Proof.
  unfold lastDMARC.
  revert s; induction results as [|[d|method] results IH]; intros s H; simpl in *;
    [discriminate H| |exact (IH s H)].
  destruct (dmarcEntries results) as [|e es] eqn:E.
  - injection H as <-.
    rewrite fold_no_dmarc by exact E. simpl.
    split; [reflexivity|split; [reflexivity|]].
    rewrite land_lor_same. discriminate.
  - apply IH. exact H.
Qed.

Lemma Header_all (s : Session) (name value : string) (m : Modifier) :
  fieldsFound s = fieldAll -> Header conf rejectDomains Parse s name value m = mkRet RespContinue None s [].
Proof.
  intros H. unfold Header. rewrite H, N.eqb_refl. reflexivity.
Qed.

Lemma Header_authres (s : Session) (name value : string) (m : Modifier) :
  N.land (fieldsFound s) fieldAuthres = 0 ->
  EqualFold name "Authentication-Results" = true ->
  Header conf rejectDomains Parse s name value m =
    match Parse value with
    | inr err =>
        mkRet RespContinue None s
              [macro m "i" ++ ": failed to parse header: " ++ err ++ ": "
                          ++ Quote (name ++ ": " ++ value)]
    | inl (id, results) =>
        if negb (EqualFold id (AuthservID conf)) then mkRet RespContinue None s []
        else mkRet RespContinue None (fold_left (recordResult rejectDomains) results s) []
    end.
Proof.
  intros Hbit Hname. unfold Header.
  rewrite authres_clear_not_all by exact Hbit.
  rewrite authres_name_not_from by exact Hname.
  rewrite andb_false_r, Hbit, Hname. reflexivity.
Qed.

(** What a header event keeps once the [Authentication-Results] bit is set. *)
Lemma Header_authres_set (s : Session) (name value : string) (m : Modifier) :
  N.land (fieldsFound s) fieldAuthres <> 0 ->
  let s' := ret_sess (Header conf rejectDomains Parse s name value m) in
  dmarcResult s' = dmarcResult s /\ shouldReject s' = shouldReject s /\
  N.land (fieldsFound s') fieldAuthres <> 0.
Proof.
  intros H. header_cases; try contradiction; auto.
  repeat split; try reflexivity. apply land_lor_keep. exact H.
Qed.

(** What a header event keeps once the [From] bit is set. *)
Lemma Header_from_set (s : Session) (name value : string) (m : Modifier) :
  N.land (fieldsFound s) fieldFrom <> 0 ->
  let s' := ret_sess (Header conf rejectDomains Parse s name value m) in
  headerFrom s' = headerFrom s /\ N.land (fieldsFound s') fieldFrom <> 0.
Proof.
  intros H. header_cases; try contradiction; auto.
  split; [apply fold_headerFrom|apply fold_keeps_bit; exact H].
Qed.

Lemma fold_cached (results : list Result) (s : Session) :
  (forall r, dmarcResult s = Some r -> shouldReject s = shouldRejectDMARCRes rejectDomains r) ->
  forall r, dmarcResult (fold_left (recordResult rejectDomains) results s) = Some r ->
  shouldReject (fold_left (recordResult rejectDomains) results s) = shouldRejectDMARCRes rejectDomains r.
Proof.
  revert s; induction results as [|[d|method] results IH]; intros s Hs; simpl;
    [exact Hs| |exact (IH s Hs)].
  apply IH. simpl. intros r Hr. injection Hr as <-. reflexivity.
Qed.

Lemma runHeaders_cached (hs : list (string * string * Modifier)) (s : Session) :
  (forall r, dmarcResult s = Some r -> shouldReject s = shouldRejectDMARCRes rejectDomains r) ->
  forall r, dmarcResult (runHeaders conf rejectDomains Parse s hs) = Some r ->
  shouldReject (runHeaders conf rejectDomains Parse s hs) = shouldRejectDMARCRes rejectDomains r.
Proof.
  revert s; induction hs as [|[[name value] m] hs IH]; intros s Hs; [exact Hs|].
  simpl. apply IH.
  header_cases; auto.
  apply fold_cached. exact Hs.
Qed.

Lemma runHeaders_authres_set (hs : list (string * string * Modifier)) (s : Session) :
  N.land (fieldsFound s) fieldAuthres <> 0 ->
  dmarcResult (runHeaders conf rejectDomains Parse s hs) = dmarcResult s /\
  shouldReject (runHeaders conf rejectDomains Parse s hs) = shouldReject s.
Proof.
  revert s; induction hs as [|[[name value] m] hs IH]; intros s H; [auto|].
  simpl.
  destruct (Header_authres_set s name value m H) as (E1 & E2 & Hb).
  destruct (IH _ Hb) as [F1 F2].
  rewrite F1, F2, E1, E2. auto.
Qed.

Lemma runHeaders_from_set (hs : list (string * string * Modifier)) (s : Session) :
  N.land (fieldsFound s) fieldFrom <> 0 ->
  headerFrom (runHeaders conf rejectDomains Parse s hs) = headerFrom s.
Proof.
  revert s; induction hs as [|[[name value] m] hs IH]; intros s H; [auto|].
  simpl.
  destruct (Header_from_set s name value m H) as (E & Hb).
  rewrite (IH _ Hb), E. reflexivity.
Qed.

Lemma runHeaders_all (hs : list (string * string * Modifier)) (s : Session) :
  fieldsFound s = fieldAll -> runHeaders conf rejectDomains Parse s hs = s.
Proof.
  revert s; induction hs as [|[[name value] m] hs IH]; intros s H; [auto|].
  simpl. rewrite Header_all by exact H. simpl. apply IH. exact H.
Qed.

Lemma runHeaders_headerFrom (hs : list (string * string * Modifier)) (s : Session) :
  N.land (fieldsFound s) fieldFrom = 0 -> headerFrom s = "" ->
  headerFrom (runHeaders conf rejectDomains Parse s hs) = firstFrom hs.
Proof.
  revert s; induction hs as [|[[name value] m] hs IH]; intros s Hb Hf; [exact Hf|].
  simpl. unfold Header.
  rewrite from_clear_not_all by exact Hb.
  rewrite Hb. simpl.
  destruct (EqualFold name "From") eqn:Ename.
  - simpl. apply runHeaders_from_set. simpl. rewrite land_lor_same. discriminate.
  - destruct ((N.land (fieldsFound s) fieldAuthres =? 0)%N
              && EqualFold name "Authentication-Results")%bool; simpl;
      [|apply IH; assumption].
    destruct (Parse value) as [[id results]|err]; simpl; [|apply IH; assumption].
    destruct (negb (EqualFold id (AuthservID conf))); simpl; [apply IH; assumption|].
    apply IH.
    + rewrite <- Hb. clear -Hb. revert s Hb.
      induction results as [|[d|method] results IHr]; intros s Hb; simpl; [reflexivity| |auto].
      rewrite IHr; simpl; rewrite ?land_lor_authres_from; auto.
    + rewrite fold_headerFrom. exact Hf.
Qed.

(** ** Claims on the session *)

(** C3: at end of headers, a session without a captured DMARC verdict is
    accepted, and its audit line reports the DMARC outcome and the claimed
    domain as [unknown]. *)
Theorem no_verdict_accepts (s : Session) (m : Modifier) :
  dmarcResult s = None ->
  ret_resp (Headers conf s m) = RespAccept /\
  ret_log (Headers conf s m) =
    [macro m "i" ++ ": accept dmarc=unknown from=unknown addr=" ++ Quote (headerFrom s)].
Proof.
  intros H. unfold Headers. rewrite H. split; reflexivity.
Qed.

(** C4: first occurrence wins.  Once the [Authentication-Results] field is
    captured, no later header event changes the verdict or the cached
    decision; once the [From] field is captured, no later event changes the
    stored value; once both are captured, later events leave the session
    unchanged. *)
Theorem first_occurrence_wins (s : Session) (hs : list (string * string * Modifier)) :
  (N.land (fieldsFound s) fieldAuthres <> 0 ->
   dmarcResult (runHeaders conf rejectDomains Parse s hs) = dmarcResult s /\
   shouldReject (runHeaders conf rejectDomains Parse s hs) = shouldReject s) /\
  (N.land (fieldsFound s) fieldFrom <> 0 ->
   headerFrom (runHeaders conf rejectDomains Parse s hs) = headerFrom s) /\
  (fieldsFound s = fieldAll -> runHeaders conf rejectDomains Parse s hs = s).
Proof.
  split; [|split].
  - apply runHeaders_authres_set.
  - apply runHeaders_from_set.
  - apply runHeaders_all.
Qed.

(** C5: with the [Authentication-Results] field not yet captured, an
    occurrence whose value does not parse, or whose authserv-id is not ours,
    answers continue and leaves the session as it was (field uncaptured,
    verdict and decision unchanged); only the parse failure logs, a line
    with the queue id, the error and the quoted raw field. *)
Theorem unparsable_or_foreign_inert (s : Session) (name value : string) (m : Modifier) :
  N.land (fieldsFound s) fieldAuthres = 0 ->
  EqualFold name "Authentication-Results" = true ->
  (forall err, Parse value = inr err ->
     Header conf rejectDomains Parse s name value m =
       mkRet RespContinue None s
             [macro m "i" ++ ": failed to parse header: " ++ err ++ ": "
                         ++ Quote (name ++ ": " ++ value)]) /\
  (forall id results, Parse value = inl (id, results) ->
     EqualFold id (AuthservID conf) = false ->
     Header conf rejectDomains Parse s name value m = mkRet RespContinue None s []).
Proof.
  intros Hbit Hname.
  rewrite Header_authres by assumption.
  split.
  - intros err ->. reflexivity.
  - intros id results -> Hid. rewrite Hid. reflexivity.
Qed.

(** C6: an occurrence with our authserv-id and at least one DMARC entry,
    with the field not yet captured, captures the last DMARC entry, marks the
    field captured and caches the decision of that entry. *)
Theorem last_dmarc_entry_captured (s : Session) (name value : string) (m : Modifier)
    (id : string) (results : list Result) (r : DMARCResult) :
  N.land (fieldsFound s) fieldAuthres = 0 ->
  EqualFold name "Authentication-Results" = true ->
  Parse value = inl (id, results) ->
  EqualFold id (AuthservID conf) = true ->
  lastDMARC results = Some r ->
  let ret := Header conf rejectDomains Parse s name value m in
  ret_resp ret = RespContinue /\
  dmarcResult (ret_sess ret) = Some r /\
  N.land (fieldsFound (ret_sess ret)) fieldAuthres <> 0 /\
  shouldReject (ret_sess ret) = shouldRejectDMARCRes rejectDomains r.
Proof.
  intros Hbit Hname Hparse Hid Hlast.
  rewrite Header_authres by assumption.
  rewrite Hparse, Hid. simpl.
  destruct (fold_last results s r Hlast) as (E1 & E2 & E3).
  auto.
Qed.

(** C9: the end-of-headers callback does not modify the session, so a
    second call returns the same response and logs the same line. *)
Theorem headers_idempotent (s : Session) (m : Modifier) :
  ret_sess (Headers conf s m) = s /\
  Headers conf (ret_sess (Headers conf s m)) m = Headers conf s m.
Proof.
  assert (E : ret_sess (Headers conf s m) = s).
  { unfold Headers. destruct (dmarcResult s); [destruct (shouldReject s)|]; reflexivity. }
  rewrite E. split; reflexivity.
Qed.

(** C10: a header event always answers continue, with no error. *)
Theorem header_always_continues (s : Session) (name value : string) (m : Modifier) :
  ret_resp (Header conf rejectDomains Parse s name value m) = RespContinue /\
  ret_err (Header conf rejectDomains Parse s name value m) = None.
Proof.
  header_cases; split; reflexivity.
Qed.

End Props.

(** ** The Domain Policy Table *)

Lemma buildRejectDomains_fold (domains : list string) (m : gmap string bool) (k : string) :
  fold_left (fun m domain => <[ToLower domain := true]> m) domains m !! k =
  if in_dec string_dec k (map ToLower domains) then Some true else m !! k.
Proof.
  revert m; induction domains as [|d domains IH]; intros m; simpl; [reflexivity|].
  rewrite IH, lookup_insert.
  destruct (in_dec string_dec k (map ToLower domains)) as [Hin|Hnin];
    destruct (string_dec (ToLower d) k) as [Heq|Hne];
    destruct (in_dec string_dec k (ToLower d :: map ToLower domains)) as [Hin'|Hnin'];
    simpl in *; try reflexivity; try tauto.
  - rewrite decide_True by exact Heq. reflexivity.
  - rewrite decide_False by exact Hne. reflexivity.
Qed.

Lemma rejectDomains_member (domains : list string) (k : string) :
  default false (buildRejectDomains domains !! k) = true <-> In k (map ToLower domains).
Proof.
  unfold buildRejectDomains. rewrite buildRejectDomains_fold, lookup_empty.
  destruct (in_dec string_dec k (map ToLower domains)); simpl; split; auto; discriminate.
Qed.

(** ** Claims on the decision and the responses *)

(** C1: in every session built by the header events, a captured verdict
    [r] has its cached decision [shouldReject] true exactly when its outcome
    is not [pass] and its claimed domain, lowercased, is one of the
    configured domains lowercased. *)
Theorem cached_decision_rule (conf : Conf) (Parse : ParseFn)
    (hs : list (string * string * Modifier)) (r : DMARCResult) :
  let s := runHeaders conf (buildRejectDomains (RejectDomains conf)) Parse newSession hs in
  dmarcResult s = Some r ->
  (shouldReject s = true <->
   Value r <> ResultPass /\ In (ToLower (From r)) (map ToLower (RejectDomains conf))).
Proof.
  intros s Hr. unfold s in *.
  rewrite (runHeaders_cached conf _ Parse hs newSession) with (r := r)
    by (try discriminate; exact Hr).
  unfold shouldRejectDMARCRes.
  rewrite andb_true_iff, negb_true_iff, rejectDomains_member.
  split; intros [H1 H2]; split; auto.
  - intros E. rewrite E in H1. discriminate H1.
  - apply String.eqb_neq. exact H1.
Qed.

(** C2: when the end of headers rejects, the response is [550 5.7.1 ]
    followed by the template [pre%spost], its one verb filled with the
    claimed domain of the verdict as received. *)
Theorem reject_response_template (conf : Conf) (s : Session) (m : Modifier) (pre post : string) :
  RejectFmt conf = pre ++ "%s" ++ post ->
  noPercent pre = true -> noPercent post = true ->
  ret_resp (Headers conf s m) <> RespAccept ->
  exists r, dmarcResult s = Some r /\ shouldReject s = true /\
    ret_resp (Headers conf s m) = ReplyCode ("550 5.7.1 " ++ pre ++ From r ++ post).
Proof.
  intros Hfmt Hpre Hpost Hrej.
  unfold Headers in *. destruct (dmarcResult s) as [r|]; [|contradiction].
  destruct (shouldReject s); [|contradiction].
  exists r. split; [reflexivity|split; [reflexivity|]].
  simpl. unfold newRejectResponse. rewrite Hfmt, Sprintf_one_verb by assumption.
  reflexivity.
Qed.

(** C7: at the end of the headers, the audit line carries the [From] value
    exactly as received.  On the [from mime encoded address] case of the
    repository's [TestMultipleFields], which expects the decoded
    [addr="Aurélien COUDERC <libre@coucou.fr>"], the line [Headers] logs
    quotes the still-encoded word, and the decoded display form does not
    appear in it. *)
Lemma audit_line_mime_from_raw :
  let hs := [("Authentication-Results", "mail.club1.fr; dmarc=pass header.from=coucou.fr",
              testModifier);
             ("From", mimeFrom, testModifier)] in
  let line := ret_log (Headers testConf
                         (runHeaders testConf testRejectDomains mimeParse newSession hs)
                         testModifier) in
  line = ["67A7541757: accept dmarc=pass from=coucou.fr addr="
            ++ String dq (mimeFrom ++ String dq EmptyString)] /\
  existsb (contains "lien COUDERC <libre@coucou.fr>") line = false.
Proof. vm_compute. split; reflexivity. Qed.

(** C8: [MailFrom] accepts unconditionally when the [{auth_authen}] macro
    is set, and continues otherwise; the session is left as it is. *)
Theorem mailfrom_authenticated_accepts (s : Session) (from : string) (m : Modifier) :
  (macro m "{auth_authen}" <> "" ->
   ret_resp (MailFrom s from m) = RespAccept /\ ret_sess (MailFrom s from m) = s) /\
  (macro m "{auth_authen}" = "" ->
   ret_resp (MailFrom s from m) = RespContinue /\ ret_sess (MailFrom s from m) = s).
Proof.
  unfold MailFrom.
  destruct (String.eqb_spec (macro m "{auth_authen}") "") as [E|E]; simpl;
    split; intros H; try contradiction; auto.
Qed.

(** ** Witnesses *)

Lemma cached_decision_rule_witness :
  dmarcResult gmailFailSession = Some (mkDMARCResult "fail" "" "GMAIL.com") /\
  (shouldReject gmailFailSession = true <->
   Value (mkDMARCResult "fail" "" "GMAIL.com") <> ResultPass /\
   In (ToLower "GMAIL.com") (map ToLower (RejectDomains testConf))).
Proof.
  assert (H : dmarcResult gmailFailSession = Some (mkDMARCResult "fail" "" "GMAIL.com"))
    by (vm_compute; reflexivity).
  split; [exact H|].
  exact (cached_decision_rule testConf testParse _ _ H).
Defined.

Lemma reject_response_template_witness :
  ret_resp (Headers testConf gmailFailSession testModifier) <> RespAccept /\
  exists r, dmarcResult gmailFailSession = Some r /\ shouldReject gmailFailSession = true /\
    ret_resp (Headers testConf gmailFailSession testModifier) =
      ReplyCode ("550 5.7.1 " ++ "rejected because of DMARC failure for " ++ From r
                 ++ " overriding policy").
Proof.
  assert (H : ret_resp (Headers testConf gmailFailSession testModifier) <> RespAccept)
    by (vm_compute; discriminate).
  split; [exact H|].
  apply (reject_response_template testConf gmailFailSession testModifier
           "rejected because of DMARC failure for " " overriding policy");
    [reflexivity|reflexivity|reflexivity|exact H].
Defined.

Lemma no_verdict_accepts_witness :
  dmarcResult malformedSession = None /\
  ret_resp (Headers testConf malformedSession testModifier) = RespAccept /\
  ret_log (Headers testConf malformedSession testModifier) =
    ["67A7541757: accept dmarc=unknown from=unknown addr=" ++ Quote "hello@example.com"].
Proof.
  assert (H : dmarcResult malformedSession = None) by (vm_compute; reflexivity).
  split; [exact H|].
  exact (no_verdict_accepts testConf malformedSession testModifier H).
Defined.

Lemma first_occurrence_wins_witness :
  fieldsFound bothSession = fieldAll /\
  dmarcResult (runHeaders testConf testRejectDomains testParse bothSession laterHeaders)
    = dmarcResult bothSession /\
  headerFrom (runHeaders testConf testRejectDomains testParse bothSession laterHeaders)
    = headerFrom bothSession /\
  runHeaders testConf testRejectDomains testParse bothSession laterHeaders = bothSession.
Proof.
  assert (Hall : fieldsFound bothSession = fieldAll) by (vm_compute; reflexivity).
  destruct (first_occurrence_wins testConf testRejectDomains testParse bothSession laterHeaders)
    as (Ha & Hf & Hs).
  split; [exact Hall|].
  split; [apply Ha; rewrite Hall; exact all_has_authres|].
  split; [apply Hf; rewrite Hall; exact all_has_from|].
  exact (Hs Hall).
Defined.

Lemma unparsable_or_foreign_inert_witness :
  N.land (fieldsFound newSession) fieldAuthres = 0 /\
  EqualFold "authentication-results" "Authentication-Results" = true /\
  Header testConf testRejectDomains testParse newSession "authentication-results" malformed testModifier =
    mkRet RespContinue None newSession
          ["67A7541757: failed to parse header: msgauth: malformed authentication method and value: "
             ++ Quote ("authentication-results: " ++ malformed)].
Proof.
  assert (Hb : N.land (fieldsFound newSession) fieldAuthres = 0) by reflexivity.
  assert (Hn : EqualFold "authentication-results" "Authentication-Results" = true)
    by (vm_compute; reflexivity).
  split; [exact Hb|split; [exact Hn|]].
  rewrite (proj1 (unparsable_or_foreign_inert testConf testRejectDomains testParse newSession
                    "authentication-results" malformed testModifier Hb Hn)
                  "msgauth: malformed authentication method and value" eq_refl).
  vm_compute. reflexivity.
Defined.

Lemma last_dmarc_entry_captured_witness :
  let ret := Header testConf testRejectDomains testParse newSession
                    "Authentication-Results" twoDmarc testModifier in
  ret_resp ret = RespContinue /\
  dmarcResult (ret_sess ret) = Some (mkDMARCResult "pass" "" "gmail.com") /\
  N.land (fieldsFound (ret_sess ret)) fieldAuthres <> 0 /\
  shouldReject (ret_sess ret) = false.
Proof.
  pose proof (last_dmarc_entry_captured testConf testRejectDomains testParse newSession
                "Authentication-Results" twoDmarc testModifier "mail.club1.fr"
                [DMARC (mkDMARCResult "fail" "" "gmail.com");
                 DMARC (mkDMARCResult "pass" "" "gmail.com")]
                (mkDMARCResult "pass" "" "gmail.com")
                eq_refl (eq_refl true) (eq_refl _) (eq_refl true) eq_refl) as H.
  exact H.
Defined.

Lemma mailfrom_authenticated_accepts_witness :
  macro authModifier "{auth_authen}" <> "" /\
  ret_resp (MailFrom newSession "alice@club1.fr" authModifier) = RespAccept.
Proof.
  assert (H : macro authModifier "{auth_authen}" <> "") by (vm_compute; discriminate).
  split; [exact H|].
  exact (proj1 (proj1 (mailfrom_authenticated_accepts newSession "alice@club1.fr" authModifier) H)).
Defined.

(** * Further properties of the code *)

(** ** [strings.Cut] *)

Lemma hasPrefix_isPrefix (s p : string) : hasPrefix s p = isPrefix p s.
Proof.
  revert s; induction p as [|c p IH]; intros [|d s]; simpl; auto.
  rewrite IH. reflexivity.
Qed.

(** [String.append] does not unfold under [simpl] once stdpp is loaded. *)
Lemma append_cons (c : ascii) (p x : string) : String c p ++ x = String c (p ++ x).
Proof. reflexivity. Qed.

Lemma hasPrefix_split (s p : string) :
  hasPrefix s p = true -> s = p ++ skip (String.length p) s.
Proof.
  revert s; induction p as [|c p IH]; intros [|d s] H; simpl in *; auto; try discriminate.
  apply andb_prop in H as [Hc Hs]. apply Ascii.eqb_eq in Hc as ->.
  rewrite append_cons. f_equal. apply IH. exact Hs.
Qed.

Lemma cut_unfold (s sep : string) :
  cut s sep =
  if hasPrefix s sep then (EmptyString, skip (String.length sep) s, true)
  else match s with
       | EmptyString => (EmptyString, EmptyString, false)
       | String c rest =>
           let '(before, after, found) := cut rest sep in
           if found then (String c before, after, true) else (s, EmptyString, false)
       end.
Proof. destruct s; reflexivity. Qed.

Lemma cut_found (s sep before after : string) :
  cut s sep = (before, after, true) ->
  s = before ++ sep ++ after /\
  (forall k, (k < String.length before)%nat -> hasPrefix (skip k s) sep = false).
Proof.
  revert before after; induction s as [|c rest IH]; intros before after;
    rewrite cut_unfold;
    match goal with |- context [hasPrefix ?x sep] => destruct (hasPrefix x sep) eqn:Hp end;
    intros H.
  - injection H as <- <-. split; [exact (hasPrefix_split _ _ Hp)|].
    simpl. intros k Hk. inversion Hk.
  - discriminate H.
  - injection H as <- <-. split; [exact (hasPrefix_split _ _ Hp)|].
    simpl. intros k Hk. inversion Hk.
  - destruct (cut rest sep) as [[b a] [|]] eqn:E; [|discriminate H].
    injection H as <- <-.
    destruct (IH b a eq_refl) as [Hs Hfirst].
    split; [simpl; rewrite Hs; reflexivity|].
    intros [|k] Hk; simpl; [exact Hp|].
    apply Hfirst. simpl in Hk. lia.
Qed.

Lemma cut_missing (s sep before after : string) :
  cut s sep = (before, after, false) -> before = s /\ after = "".
Proof.
  rewrite cut_unfold. destruct (hasPrefix s sep); destruct s as [|c rest]; intros H;
    try discriminate H.
  - injection H as <- <-. auto.
  - destruct (cut rest sep) as [[b a] [|]]; [discriminate H|].
    injection H as <- <-. auto.
Qed.

Lemma cut_found_contains (s sep : string) : snd (cut s sep) = contains sep s.
Proof.
  induction s as [|c rest IH]; rewrite cut_unfold; simpl contains; rewrite hasPrefix_isPrefix;
    match goal with |- context [isPrefix sep ?x] => destruct (isPrefix sep x) end; simpl; auto.
  destruct (cut rest sep) as [[b a] f]. simpl in *.
  destruct f; simpl; auto.
Qed.

Lemma cut_no_colon (n a : string) :
  contains ":" n = false -> cut (n ++ "://" ++ a) "://" = (n, a, true).
Proof.
  induction n as [|c n IH]; intros H.
  - reflexivity.
  - simpl in H. apply orb_false_elim in H as [Hc Hn].
    assert (Hc' : Ascii.eqb ":" c = false).
    { change ((Ascii.eqb ":" c && true)%bool = false) in Hc.
      rewrite andb_true_r in Hc. exact Hc. }
    rewrite append_cons, cut_unfold, IH by exact Hn.
    cbn [hasPrefix]. rewrite Hc'. reflexivity.
Qed.

Lemma append_empty (s : string) : s ++ "" = s.
Proof. induction s as [|c s IH]; [reflexivity|]. rewrite append_cons, IH. reflexivity. Qed.

(** ** Header events, beyond the claims *)

Section Events.

Variable conf : Conf.
Variable rejectDomains : gmap string bool.
Variable Parse : ParseFn.

Ltac split_header :=
  unfold Header;
  repeat match goal with
  | |- context [if ?b then _ else _] => destruct b eqn:?
  | |- context [match Parse ?v with _ => _ end] =>
      let E := fresh "Eparse" in destruct (Parse v) as [[? ?]|?] eqn:E
  end; cbn [ret_resp ret_err ret_sess ret_log];
  repeat match goal with
  | H : (_ && _)%bool = true |- _ => apply andb_prop in H as [? ?]
  | H : N.eqb _ _ = true |- _ => apply N.eqb_eq in H
  end.

(** The macros of the callback (the queue id) only reach the log: the
    response, the error and the session after a header event do not depend
    on them. *)
Theorem header_ignores_macros (s : Session) (name value : string) (m1 m2 : Modifier) :
  ret_resp (Header conf rejectDomains Parse s name value m1) =
    ret_resp (Header conf rejectDomains Parse s name value m2) /\
  ret_err (Header conf rejectDomains Parse s name value m1) =
    ret_err (Header conf rejectDomains Parse s name value m2) /\
  ret_sess (Header conf rejectDomains Parse s name value m1) =
    ret_sess (Header conf rejectDomains Parse s name value m2).
Proof. split_header; auto. Qed.

(** A header event logs one line exactly when it is an
    [Authentication-Results] field (any case) evaluated while that field is
    not yet captured, and its value does not parse: the line gives the queue
    id, the parse error and the quoted field.  Every other event logs
    nothing. *)
Theorem header_logs_only_parse_failure (s : Session) (name value : string) (m : Modifier) :
  (forall err, N.land (fieldsFound s) fieldAuthres = 0 ->
     EqualFold name "Authentication-Results" = true -> Parse value = inr err ->
     ret_log (Header conf rejectDomains Parse s name value m) =
       [macro m "i" ++ ": failed to parse header: " ++ err ++ ": "
                   ++ Quote (name ++ ": " ++ value)]) /\
  (ret_log (Header conf rejectDomains Parse s name value m) = [] \/
   (N.land (fieldsFound s) fieldAuthres = 0 /\
    EqualFold name "Authentication-Results" = true /\
    exists err, Parse value = inr err /\
      ret_log (Header conf rejectDomains Parse s name value m) =
        [macro m "i" ++ ": failed to parse header: " ++ err ++ ": "
                    ++ Quote (name ++ ": " ++ value)])).
Proof.
  split.
  - intros err Hbit Hname Hparse. unfold Header.
    rewrite (authres_clear_not_all _ Hbit), (authres_name_not_from _ Hname), andb_false_r,
      Hbit, Hname, Hparse.
    reflexivity.
  - split_header; auto.
    right. split; [assumption|split; [assumption|]]. eauto.
Qed.

(** A header that is neither [From] nor [Authentication-Results] (in any
    case) leaves the session as it is and logs nothing. *)
Theorem other_header_inert (s : Session) (name value : string) (m : Modifier) :
  EqualFold name "From" = false ->
  EqualFold name "Authentication-Results" = false ->
  Header conf rejectDomains Parse s name value m = mkRet RespContinue None s [].
Proof. intros H1 H2. split_header; congruence. Qed.

Lemma recordResult_inv (s : Session) (result : Result) :
  sessionInv s -> sessionInv (recordResult rejectDomains s result).
Proof.
  intros (H1 & H2 & H3 & H4). destruct result as [r|method]; [|exact (conj H1 (conj H2 (conj H3 H4)))].
  unfold sessionInv; cbn [recordResult fieldsFound dmarcResult shouldReject headerFrom].
  split; [|split; [|split]].
  - rewrite N.land_lor_distr_l, H1. reflexivity.
  - rewrite land_lor_same. split; discriminate.
  - discriminate.
  - rewrite land_lor_authres_from. exact H4.
Qed.

Lemma fold_inv (results : list Result) (s : Session) :
  sessionInv s -> sessionInv (fold_left (recordResult rejectDomains) results s).
Proof.
  revert s; induction results as [|result rest IH]; intros s Hs; [exact Hs|].
  apply IH. apply recordResult_inv. exact Hs.
Qed.

Lemma Header_inv (s : Session) (name value : string) (m : Modifier) :
  sessionInv s -> sessionInv (ret_sess (Header conf rejectDomains Parse s name value m)).
Proof.
  intros Hs. split_header; auto.
  - destruct Hs as (H1 & H2 & H3 & H4).
    unfold sessionInv; cbn [fieldsFound dmarcResult shouldReject headerFrom].
    split; [|split; [|split]].
    + rewrite N.land_lor_distr_l, H1. reflexivity.
    + rewrite land_lor_from_authres. exact H2.
    + exact H3.
    + rewrite land_lor_same. intros E. discriminate E.
  - apply fold_inv. exact Hs.
Qed.

(** Every session built by header events from [&Session{}] keeps
    [sessionInv]: only the two field bits are used, the
    [Authentication-Results] bit is set exactly when a verdict is held,
    there is no cached reject without a verdict and no [From] value without
    the [From] bit. *)
Theorem reachable_session_inv (hs : list (string * string * Modifier)) :
  sessionInv (runHeaders conf rejectDomains Parse newSession hs).
Proof.
  assert (H0 : sessionInv newSession).
  { unfold sessionInv; simpl. split; [reflexivity|split; [split; reflexivity|]].
    split; reflexivity. }
  revert H0. generalize newSession.
  induction hs as [|[[name value] m] hs IH]; intros s Hs; [exact Hs|].
  simpl. apply IH. apply Header_inv. exact Hs.
Qed.

Lemma fold_sameVerdict (results : list Result) (s1 s2 : Session) :
  sameVerdict s1 s2 ->
  sameVerdict (fold_left (recordResult rejectDomains) results s1)
              (fold_left (recordResult rejectDomains) results s2).
Proof.
  revert s1 s2; induction results as [|[r|method] rest IH]; intros s1 s2 H;
    [exact H| |exact (IH _ _ H)].
  apply IH. destruct H as (_ & _ & _ & H4).
  unfold sameVerdict; cbn [recordResult fieldsFound dmarcResult shouldReject].
  rewrite !land_lor_same, land_lor_authres_from. auto.
Qed.

Lemma Header_sameVerdict_authres (s1 s2 : Session) (name value : string) (m : Modifier) :
  sameVerdict s1 s2 -> EqualFold name "Authentication-Results" = true ->
  sameVerdict (ret_sess (Header conf rejectDomains Parse s1 name value m))
              (ret_sess (Header conf rejectDomains Parse s2 name value m)).
Proof.
  intros H Hname. pose proof (authres_name_not_from name Hname) as Hfrom.
  destruct H as (E1 & E2 & E3 & E4).
  assert (N2 : N.eqb (fieldsFound s2) fieldAll = false) by exact (from_clear_not_all _ E4).
  unfold Header. rewrite N2, Hfrom, !andb_false_r, Hname, !andb_true_r.
  destruct (N.eqb (fieldsFound s1) fieldAll) eqn:N1.
  - apply N.eqb_eq in N1.
    assert (B : N.land (fieldsFound s2) fieldAuthres <> 0).
    { rewrite <- E3, N1. exact all_has_authres. }
    apply N.eqb_neq in B. rewrite B. cbn [ret_sess].
    unfold sameVerdict. auto.
  - rewrite E3.
    destruct (N.eqb (N.land (fieldsFound s2) fieldAuthres) 0); cbn [ret_sess];
      [|unfold sameVerdict; auto].
    destruct (Parse value) as [[id results]|err]; cbn [ret_sess];
      [|unfold sameVerdict; auto].
    destruct (negb (EqualFold id (AuthservID conf))); cbn [ret_sess];
      [unfold sameVerdict; auto|].
    apply fold_sameVerdict. unfold sameVerdict; auto.
Qed.

Lemma Header_sameVerdict_other (s1 s2 : Session) (name value : string) (m : Modifier) :
  sameVerdict s1 s2 -> EqualFold name "Authentication-Results" = false ->
  sameVerdict (ret_sess (Header conf rejectDomains Parse s1 name value m)) s2.
Proof.
  intros H Hname. destruct H as (E1 & E2 & E3 & E4).
  unfold Header. rewrite Hname, andb_false_r.
  destruct (N.eqb (fieldsFound s1) fieldAll); cbn [ret_sess]; [unfold sameVerdict; auto|].
  destruct ((N.land (fieldsFound s1) fieldFrom =? 0)%N && EqualFold name "From")%bool;
    unfold sameVerdict; cbn [ret_sess fieldsFound dmarcResult shouldReject];
    rewrite ?land_lor_from_authres; auto.
Qed.

(** The verdict and the cached decision of a transaction depend only on its
    [Authentication-Results] fields: dropping every other header field
    (including [From], and whatever fills the bitmask for the early exit)
    gives the same verdict and decision. *)
Theorem verdict_only_from_authres (hs : list (string * string * Modifier)) :
  dmarcResult (runHeaders conf rejectDomains Parse newSession hs) =
    dmarcResult (runHeaders conf rejectDomains Parse newSession (authresEvents hs)) /\
  shouldReject (runHeaders conf rejectDomains Parse newSession hs) =
    shouldReject (runHeaders conf rejectDomains Parse newSession (authresEvents hs)).
Proof.
  assert (H : sameVerdict (runHeaders conf rejectDomains Parse newSession hs)
                          (runHeaders conf rejectDomains Parse newSession (authresEvents hs))).
  { assert (H0 : sameVerdict newSession newSession)
      by (unfold sameVerdict; simpl; auto).
    revert H0. generalize newSession at 1 3. generalize newSession.
    induction hs as [|[[name value] m] hs IH]; intros s2 s1 H; [exact H|].
    unfold authresEvents. simpl.
    destruct (EqualFold name "Authentication-Results") eqn:Hname; simpl.
    - apply IH. apply Header_sameVerdict_authres; assumption.
    - apply IH. apply Header_sameVerdict_other; assumption. }
  destruct H as (E1 & E2 & _). auto.
Qed.

End Events.

(** ** The decision of a transaction *)

Lemma shouldReject_member (domains : list string) (r : DMARCResult) :
  shouldRejectDMARCRes (buildRejectDomains domains) r = true <->
  Value r <> ResultPass /\ In (ToLower (From r)) (map ToLower domains).
Proof.
  unfold shouldRejectDMARCRes. rewrite andb_true_iff, negb_true_iff, String.eqb_neq,
    rejectDomains_member. tauto.
Qed.

(** With the table [main] builds from [conf.RejectDomains], the response at
    the end of the headers of a transaction is a rejection, with the reply of
    [newRejectResponse] for the captured domain, exactly when a verdict was
    captured whose value is not [pass] and whose domain is in the
    configured list up to ASCII case; it is [RespAccept] otherwise. *)
Theorem transaction_response (conf : Conf) (Parse : ParseFn)
    (hs : list (string * string * Modifier)) (m : Modifier) :
  let s := runHeaders conf (buildRejectDomains (RejectDomains conf)) Parse newSession hs in
  (exists r, dmarcResult s = Some r /\ Value r <> ResultPass /\
     In (ToLower (From r)) (map ToLower (RejectDomains conf)) /\
     ret_resp (Headers conf s m) = newRejectResponse conf (From r)) \/
  (ret_resp (Headers conf s m) = RespAccept /\
   ~ exists r, dmarcResult s = Some r /\ Value r <> ResultPass /\
       In (ToLower (From r)) (map ToLower (RejectDomains conf))).
Proof.
  intros s.
  pose proof (runHeaders_cached conf (buildRejectDomains (RejectDomains conf)) Parse hs newSession
                (fun r H => ltac:(discriminate H))) as Hc.
  fold s in Hc.
  unfold Headers. destruct (dmarcResult s) as [r|] eqn:Hr.
  - rewrite (Hc r eq_refl).
    destruct (shouldRejectDMARCRes (buildRejectDomains (RejectDomains conf)) r) eqn:Hd.
    + left. apply shouldReject_member in Hd as [Hv Hin]. exists r. auto.
    + right. split; [reflexivity|]. intros (r' & E & Hv & Hin).
      injection E as <-.
      assert (Ht : shouldRejectDMARCRes (buildRejectDomains (RejectDomains conf)) r = true)
        by (apply shouldReject_member; auto).
      congruence.
  - right. split; [reflexivity|]. intros (r' & E & _). discriminate E.
Qed.

(** ** The reject reply *)

(** A [RejectFmt] without any [%] has no verb for the domain: [fmt.Sprintf]
    appends it as [%!(EXTRA string=...)] after the whole template. *)
Theorem reject_response_no_verb (conf : Conf) (d : string) :
  noPercent (RejectFmt conf) = true ->
  newRejectResponse conf d =
    ReplyCode ("550 5.7.1 " ++ RejectFmt conf ++ "%!(EXTRA string=" ++ d ++ ")").
Proof.
  intros H. unfold newRejectResponse, Sprintf.
  rewrite <- (append_empty (RejectFmt conf)), sprintf_app_noPercent, append_empty by exact H.
  reflexivity.
Qed.

(** With the default template of [RejectFmt], the reply names the domain in
    the middle of a fixed sentence, whatever the domain. *)
Theorem reject_response_default (d : string) :
  newRejectResponse defaultConf d =
    ReplyCode ("550 5.7.1 rejected because of DMARC failure for " ++ d ++ " overriding policy").
Proof.
  unfold newRejectResponse.
  change (RejectFmt defaultConf) with
    ("rejected because of DMARC failure for " ++ "%s" ++ " overriding policy").
  rewrite Sprintf_one_verb by reflexivity. reflexivity.
Qed.

(** ** Start-up *)

Lemma mainSetup_serving (flagConf : string) (load : LoadResult) (hostname : string + error)
    (listen : string -> string -> (string * string) + error) (rd0 : gmap string bool)
    (c : Conf) (rd : gmap string bool) (network address : string) (log : list string) :
  mainSetup flagConf load hostname listen rd0 = Serving c rd network address log ->
  exists c0 id ln la,
    load = Decoded c0 /\
    (if String.eqb (AuthservID c0) "" then hostname else inl (AuthservID c0)) = inl id /\
    c = mkConf id (ListenURI c0) (RejectDomains c0) (RejectFmt c0) (UMask c0) /\
    cut (ListenURI c0) "://" = (network, address, true) /\
    rd = addRejectDomains rd0 (RejectDomains c0) /\
    listen network address = inl (ln, la) /\
    log = ["Milter listening at " ++ ln ++ "://" ++ la].
Proof.
  unfold mainSetup. destruct load as [err|err|c0]; try discriminate.
  destruct (if String.eqb (AuthservID c0) "" then hostname else inl (AuthservID c0))
    as [id|err] eqn:Hid; [|discriminate].
  cbn [ListenURI RejectDomains].
  destruct (cut (ListenURI c0) "://") as [[n a] [|]] eqn:Hcut; [|discriminate].
  cbn [negb]. destruct (listen n a) as [[ln la]|err] eqn:Hl; [|discriminate].
  intros H. injection H as <- <- <- <- <-.
  exists c0, id, ln, la. auto 10.
Qed.

(** When [main] comes to serve, [network] and [address] are the two sides of
    the first [://] of [ListenURI]: joined by [://] they give it back, and no
    earlier position of it starts a [://]. *)
Theorem setup_listen_split (flagConf : string) (load : LoadResult) (hostname : string + error)
    (listen : string -> string -> (string * string) + error) (rd0 : gmap string bool)
    (c : Conf) (rd : gmap string bool) (network address : string) (log : list string) :
  mainSetup flagConf load hostname listen rd0 = Serving c rd network address log ->
  ListenURI c = network ++ "://" ++ address /\
  (forall k, (k < String.length network)%nat -> hasPrefix (skip k (ListenURI c)) "://" = false).
Proof.
  intros H. apply mainSetup_serving in H as (c0 & id & ln & la & _ & _ & -> & Hcut & _).
  exact (cut_found _ _ _ _ Hcut).
Qed.

(** The [AuthservID] [main] serves with is the one of the file when it is
    set, and the host name otherwise; the other fields are the file's. *)
Theorem setup_authserv_id (flagConf : string) (c0 : Conf) (hostname : string + error)
    (listen : string -> string -> (string * string) + error) (rd0 : gmap string bool)
    (c : Conf) (rd : gmap string bool) (network address : string) (log : list string) :
  mainSetup flagConf (Decoded c0) hostname listen rd0 = Serving c rd network address log ->
  (AuthservID c0 <> "" -> AuthservID c = AuthservID c0) /\
  (AuthservID c0 = "" -> hostname = inl (AuthservID c)) /\
  ListenURI c = ListenURI c0 /\ RejectDomains c = RejectDomains c0 /\
  RejectFmt c = RejectFmt c0 /\ UMask c = UMask c0.
Proof.
  intros H. apply mainSetup_serving in H as (c1 & id & ln & la & E & Hid & -> & _).
  injection E as <-. cbn [AuthservID ListenURI RejectDomains RejectFmt UMask].
  repeat split; auto; intros Ha.
  - apply String.eqb_neq in Ha. rewrite Ha in Hid. injection Hid as ->. reflexivity.
  - rewrite Ha in Hid. exact Hid.
Qed.

(** The loop over [conf.RejectDomains] adds each configured domain, lowered,
    to the table [main] starts from, and keeps every entry already there. *)
Theorem setup_reject_table (flagConf : string) (load : LoadResult) (hostname : string + error)
    (listen : string -> string -> (string * string) + error) (rd0 : gmap string bool)
    (c : Conf) (rd : gmap string bool) (network address : string) (log : list string)
    (k : string) :
  mainSetup flagConf load hostname listen rd0 = Serving c rd network address log ->
  rd !! k = if in_dec string_dec k (map ToLower (RejectDomains c)) then Some true else rd0 !! k.
Proof.
  intros H. apply mainSetup_serving in H as (c0 & id & ln & la & _ & _ & -> & _ & -> & _).
  apply buildRejectDomains_fold.
Qed.

(** A [ListenURI] without [://] stops [main] with [Invalid listen URI]
    before any listener is set up, once the [AuthservID] is known. *)
Theorem setup_invalid_uri (flagConf : string) (c0 : Conf) (hostname : string + error)
    (listen : string -> string -> (string * string) + error) (rd0 : gmap string bool) :
  contains "://" (ListenURI c0) = false ->
  (AuthservID c0 <> "" \/ exists h, hostname = inl h) ->
  mainSetup flagConf (Decoded c0) hostname listen rd0 = Fatal "Invalid listen URI".
Proof.
  intros Hc Hid. unfold mainSetup.
  destruct (if String.eqb (AuthservID c0) "" then hostname else inl (AuthservID c0))
    as [id|err] eqn:E.
  - cbn [ListenURI].
    pose proof (cut_found_contains (ListenURI c0) "://") as Hf. rewrite Hc in Hf.
    destruct (cut (ListenURI c0) "://") as [[n a] found]. cbn [snd] in Hf. subst found.
    reflexivity.
  - exfalso. destruct Hid as [Ha|(h & Hh)].
    + apply String.eqb_neq in Ha. rewrite Ha in E. discriminate E.
    + destruct (String.eqb (AuthservID c0) ""); congruence.
Qed.

Lemma readListener_line (rest : string) (later : list string) :
  readListener (("Milter listening at " ++ rest) :: later) = ListenerAddr rest.
Proof.
  cbn [readListener].
  change ("Milter listening at " ++ rest) with ("Milter listening" ++ (" at " ++ rest)).
  rewrite hasPrefix_isPrefix.
  replace (isPrefix "Milter listening" ("Milter listening" ++ (" at " ++ rest))) with true
    by (rewrite <- hasPrefix_isPrefix; reflexivity).
  change ("Milter listening" ++ (" at " ++ rest)) with ("Milter listening at " ++ rest).
  replace (Nat.leb 20 (String.length ("Milter listening at " ++ rest))) with true.
  - reflexivity.
  - symmetry. apply Nat.leb_le.
    change (20 <= S (S (S (S (S (S (S (S (S (S (S (S (S (S (S (S (S (S (S (S
              (String.length rest)))))))))))))))))))))%nat. lia.
Qed.

(** The line [main] logs once it listens is read back by [readListener] of
    the tests as the listener's [network://address], whatever is logged
    after it; cut at its first [://] it gives the network and address again
    when the network has no [:]. *)
Theorem setup_listener_roundtrip (flagConf : string) (load : LoadResult)
    (hostname : string + error)
    (listen : string -> string -> (string * string) + error) (rd0 : gmap string bool)
    (c : Conf) (rd : gmap string bool) (network address : string) (log : list string) :
  mainSetup flagConf load hostname listen rd0 = Serving c rd network address log ->
  exists ln la, listen network address = inl (ln, la) /\
    (forall later, readListener (log ++ later) = ListenerAddr (ln ++ "://" ++ la)) /\
    (contains ":" ln = false -> cut (ln ++ "://" ++ la) "://" = (ln, la, true)).
Proof.
  intros H. apply mainSetup_serving in H as (c0 & id & ln & la & _ & _ & _ & _ & _ & Hl & ->).
  exists ln, la. split; [exact Hl|]. split.
  - intros later. apply readListener_line.
  - apply cut_no_colon.
Qed.

(** ** Instances of the properties above *)

Lemma other_header_inert_witness :
  EqualFold "Subject" "From" = false /\
  EqualFold "Subject" "Authentication-Results" = false /\
  Header testConf testRejectDomains testParse newSession "Subject" "hello" testModifier =
    mkRet RespContinue None newSession [].
Proof.
  split; [reflexivity|]. split; [reflexivity|].
  apply (other_header_inert testConf testRejectDomains testParse newSession "Subject" "hello"
           testModifier); reflexivity.
Defined.

Lemma header_logs_only_parse_failure_witness :
  N.land (fieldsFound newSession) fieldAuthres = 0 /\
  EqualFold "Authentication-Results" "Authentication-Results" = true /\
  testParse malformed = inr "msgauth: malformed authentication method and value" /\
  ret_log (Header testConf testRejectDomains testParse newSession "Authentication-Results"
                  malformed testModifier) =
    [macro testModifier "i" ++ ": failed to parse header: "
       ++ "msgauth: malformed authentication method and value" ++ ": "
       ++ Quote ("Authentication-Results" ++ ": " ++ malformed)].
Proof.
  split; [reflexivity|]. split; [reflexivity|]. split; [reflexivity|].
  apply (proj1 (header_logs_only_parse_failure testConf testRejectDomains testParse newSession
                  "Authentication-Results" malformed testModifier)); reflexivity.
Defined.

Lemma reject_response_no_verb_witness :
  noPercent (RejectFmt plainFmtConf) = true /\
  newRejectResponse plainFmtConf "gmail.com" =
    ReplyCode ("550 5.7.1 " ++ RejectFmt plainFmtConf ++ "%!(EXTRA string=" ++ "gmail.com" ++ ")").
Proof.
  split; [reflexivity|].
  apply (reject_response_no_verb plainFmtConf "gmail.com"). reflexivity.
Defined.

Lemma setup_listen_split_witness :
  mainSetup confPath (Decoded fileConf) (inl "mail.club1.fr") echoListen ∅ =
    Serving servedConf servedTable "tcp" "127.0.0.1:8890"
            ["Milter listening at tcp://127.0.0.1:8890"] /\
  ListenURI servedConf = "tcp" ++ "://" ++ "127.0.0.1:8890" /\
  (forall k, (k < String.length "tcp")%nat -> hasPrefix (skip k (ListenURI servedConf)) "://" = false).
Proof.
  assert (H : mainSetup confPath (Decoded fileConf) (inl "mail.club1.fr") echoListen ∅ =
                Serving servedConf servedTable "tcp" "127.0.0.1:8890"
                        ["Milter listening at tcp://127.0.0.1:8890"])
    by (vm_compute; reflexivity).
  split; [exact H|].
  exact (setup_listen_split confPath (Decoded fileConf) (inl "mail.club1.fr") echoListen ∅
           servedConf servedTable "tcp" "127.0.0.1:8890"
           ["Milter listening at tcp://127.0.0.1:8890"] H).
Defined.

Lemma setup_authserv_id_witness :
  mainSetup confPath (Decoded fileConf) (inl "mail.club1.fr") echoListen ∅ =
    Serving servedConf servedTable "tcp" "127.0.0.1:8890"
            ["Milter listening at tcp://127.0.0.1:8890"] /\
  (AuthservID fileConf <> "" -> AuthservID servedConf = AuthservID fileConf) /\
  (AuthservID fileConf = "" -> (inl "mail.club1.fr" : string + error) = inl (AuthservID servedConf)) /\
  ListenURI servedConf = ListenURI fileConf /\ RejectDomains servedConf = RejectDomains fileConf /\
  RejectFmt servedConf = RejectFmt fileConf /\ UMask servedConf = UMask fileConf.
Proof.
  assert (H : mainSetup confPath (Decoded fileConf) (inl "mail.club1.fr") echoListen ∅ =
                Serving servedConf servedTable "tcp" "127.0.0.1:8890"
                        ["Milter listening at tcp://127.0.0.1:8890"])
    by (vm_compute; reflexivity).
  split; [exact H|].
  exact (setup_authserv_id confPath fileConf (inl "mail.club1.fr") echoListen ∅
           servedConf servedTable "tcp" "127.0.0.1:8890"
           ["Milter listening at tcp://127.0.0.1:8890"] H).
Defined.

Lemma setup_reject_table_witness :
  mainSetup confPath (Decoded fileConf) (inl "mail.club1.fr") echoListen ∅ =
    Serving servedConf servedTable "tcp" "127.0.0.1:8890"
            ["Milter listening at tcp://127.0.0.1:8890"] /\
  servedTable !! "gmail.com" =
    (if in_dec string_dec "gmail.com" (map ToLower (RejectDomains servedConf))
     then Some true else (∅ : gmap string bool) !! "gmail.com").
Proof.
  assert (H : mainSetup confPath (Decoded fileConf) (inl "mail.club1.fr") echoListen ∅ =
                Serving servedConf servedTable "tcp" "127.0.0.1:8890"
                        ["Milter listening at tcp://127.0.0.1:8890"])
    by (vm_compute; reflexivity).
  split; [exact H|].
  exact (setup_reject_table confPath (Decoded fileConf) (inl "mail.club1.fr") echoListen ∅
           servedConf servedTable "tcp" "127.0.0.1:8890"
           ["Milter listening at tcp://127.0.0.1:8890"] "gmail.com" H).
Defined.

Lemma setup_invalid_uri_witness :
  contains "://" (ListenURI badUriConf) = false /\
  mainSetup confPath (Decoded badUriConf) (inl "mail.club1.fr") echoListen ∅ =
    Fatal "Invalid listen URI".
Proof.
  split; [reflexivity|].
  apply (setup_invalid_uri confPath badUriConf (inl "mail.club1.fr") echoListen ∅).
  - reflexivity.
  - right. exists "mail.club1.fr". reflexivity.
Defined.

Lemma setup_listener_roundtrip_witness :
  mainSetup confPath (Decoded fileConf) (inl "mail.club1.fr") echoListen ∅ =
    Serving servedConf servedTable "tcp" "127.0.0.1:8890"
            ["Milter listening at tcp://127.0.0.1:8890"] /\
  exists ln la, echoListen "tcp" "127.0.0.1:8890" = inl (ln, la) /\
    (forall later, readListener (["Milter listening at tcp://127.0.0.1:8890"] ++ later) =
                   ListenerAddr (ln ++ "://" ++ la)) /\
    (contains ":" ln = false -> cut (ln ++ "://" ++ la) "://" = (ln, la, true)).
Proof.
  assert (H : mainSetup confPath (Decoded fileConf) (inl "mail.club1.fr") echoListen ∅ =
                Serving servedConf servedTable "tcp" "127.0.0.1:8890"
                        ["Milter listening at tcp://127.0.0.1:8890"])
    by (vm_compute; reflexivity).
  split; [exact H|].
  exact (setup_listener_roundtrip confPath (Decoded fileConf) (inl "mail.club1.fr") echoListen ∅
           servedConf servedTable "tcp" "127.0.0.1:8890"
           ["Milter listening at tcp://127.0.0.1:8890"] H).
Defined.
